(** * TriviaAPI: a shallow embedding of [backend/flaskr/__init__.py]

    The Flask application of the repository is embedded as pure functions
    over an explicit store (the two tables [questions] and [categories]).
    Python exceptions are an error monad, [abort] raises an
    [HTTPException], and Flask's dispatch of a view's outcome to an HTTP
    response is the function [full_dispatch_request].

    What [models.py] provides (it is not part of the sources at hand) is
    taken as the parameters of [Section Flaskr]: [format], [insert] and
    [delete].  The headers that [after_request] adds to every response
    are left out. *)

From Stdlib Require Import ZArith List String Ascii Bool Lia.
From Stdlib Require Import Sorting.Sorted Sorting.Permutation.
Import ListNotations.

Set Warnings "-register-all".
Local Open Scope string_scope.
Local Open Scope list_scope.
Local Open Scope Z_scope.

(** ** Python values and exceptions *)

(** The Python objects handed to [jsonify]. *)
Inductive pyobj : Type :=
| PyNone
| PyBool (b : bool)
| PyInt (z : Z)
| PyStr (s : string)
| PyList (l : list pyobj)
| PyDict (items : list (pyobj * pyobj)).

(** A JSON scalar of a request body: a number or a string. *)
Inductive scalar : Type :=
| SInt (z : Z)
| SStr (s : string).

Inductive exn : Type :=
| HTTPException (code : Z) (description : option string)
| KeyError
| TypeError
| ValueError
| AttributeError
| IndexError
| StoreError.

Inductive result (A : Type) : Type :=
| Ok (a : A)
| Raise (e : exn).

Arguments Ok {A} a.
Arguments Raise {A} e.

Definition bind {A B : Type} (m : result A) (k : A -> result B) : result B :=
  match m with
  | Ok a => k a
  | Raise e => Raise e
  end.

Notation "x <- m ;; k" := (bind m (fun x => k))
  (at level 61, m at next level, right associativity).

(** [try: m except: h] with a bare [except], which catches every
    exception, [HTTPException] included. *)
Definition try_except {A : Type} (m : result A) (h : result A) : result A :=
  match m with
  | Ok a => Ok a
  | Raise _ => h
  end.

(** [abort(code)] and [abort(code, description)]. *)
Definition abort {A : Type} (code : Z) (description : option string) : result A :=
  Raise (HTTPException code description).

(** ** Python built-ins used by the views *)

Module Py.

(** [l[start:stop]]: a negative bound counts from the end, and both
    bounds are clipped to [0 .. len l]. *)
Definition clamp (n i : Z) : Z :=
  if i <? 0 then Z.max 0 (i + n) else Z.min i n.

Definition slice {A : Type} (l : list A) (start stop : Z) : list A :=
  let n := Z.of_nat (List.length l) in
  let s := clamp n start in
  let e := clamp n stop in
  firstn (Z.to_nat (e - s)) (skipn (Z.to_nat s) l).

(** [l[i]]: a negative index counts from the end; out of range raises
    [IndexError]. *)
Definition getitem {A : Type} (l : list A) (i : Z) : result A :=
  let n := Z.of_nat (List.length l) in
  let j := if i <? 0 then i + n else i in
  if (j <? 0) || (n <=? j) then Raise IndexError
  else match nth_error l (Z.to_nat j) with
       | Some a => Ok a
       | None => Raise IndexError
       end.

(** [d[key]] on a dict with string keys. *)
Fixpoint lookup {A : Type} (key : string) (d : list (string * A)) : option A :=
  match d with
  | [] => None
  | (k, v) :: d' => if String.eqb k key then Some v else lookup key d'
  end.

Definition subscript {A : Type} (d : list (string * A)) (key : string) : result A :=
  match lookup key d with
  | Some v => Ok v
  | None => Raise KeyError
  end.

(** Truth value of a string: the empty string is false. *)
Definition truthy_str (s : string) : bool :=
  match s with
  | EmptyString => false
  | String _ _ => true
  end.

(** *** [int(s)] on an ASCII string

    Surrounding whitespace is dropped, one sign is allowed, and the
    digits may be grouped by single underscores. *)

Definition is_space (c : ascii) : bool :=
  let n := N_of_ascii c in
  ((9 <=? n) && (n <=? 13))%N || (n =? 32)%N.

Definition digit_of (c : ascii) : option Z :=
  let n := N_of_ascii c in
  if ((48 <=? n) && (n <=? 57))%N then Some (Z.of_N n - 48) else None.

Fixpoint lstrip (s : list ascii) : list ascii :=
  match s with
  | c :: s' => if is_space c then lstrip s' else s
  | [] => []
  end.

Definition strip (s : list ascii) : list ascii :=
  rev (lstrip (rev (lstrip s))).

(** [digits acc prev_digit s]: reads the rest of a numeral; an
    underscore must stand between two digits. *)
Fixpoint digits (acc : Z) (prev_digit : bool) (s : list ascii) : option Z :=
  match s with
  | [] => if prev_digit then Some acc else None
  | c :: s' =>
      match digit_of c with
      | Some d => digits (10 * acc + d) true s'
      | None =>
          if (Ascii.eqb c "_"%char) && prev_digit
          then match s' with
               | [] => None
               | c' :: _ =>
                   match digit_of c' with
                   | Some _ => digits acc false s'
                   | None => None
                   end
               end
          else None
      end
  end.

Definition int_of_chars (s : list ascii) : option Z :=
  match strip s with
  | [] => None
  | c :: s' =>
      if Ascii.eqb c "-"%char then option_map Z.opp (digits 0 false s')
      else if Ascii.eqb c "+"%char then digits 0 false s'
      else digits 0 false (c :: s')
  end.

Definition int_of_string (s : string) : result Z :=
  match int_of_chars (list_ascii_of_string s) with
  | Some z => Ok z
  | None => Raise ValueError
  end.

(** [int(v)] on a JSON scalar. *)
Definition int (v : scalar) : result Z :=
  match v with
  | SInt z => Ok z
  | SStr s => int_of_string s
  end.

End Py.

(** ** The data model *)

(** Modelled from the spec: the columns of the [Question] and [Category]
    tables, which [models.py] declares. *)
Record Question : Type := mkQuestion {
  id : Z;
  question : string;
  answer : string;
  category : Z;
  difficulty : Z
}.

Record Category : Type := mkCategory {
  cat_id : Z;
  cat_type : string
}.

(** The database: the rows of both tables, in the order a query without
    [order_by] returns them. *)
Record Store : Type := mkStore {
  questions : list Question;
  categories : list Category
}.

(** The keyword arguments of [Question(...)] in [create_question]; each
    is [None] when the body lacks the key. *)
Record NewQuestion : Type := mkNewQuestion {
  new_question : option string;
  new_difficulty : option scalar;
  new_category : option scalar;
  new_answer : option string
}.

(** The JSON body of a request, restricted to the keys the views read. *)
Record Body : Type := mkBody {
  b_question : option string;
  b_category : option scalar;
  b_answer : option string;
  b_difficulty : option scalar;
  b_search : option string;
  b_quiz_category : option (list (string * scalar));
  b_previous_questions : option (list Z)
}.

(** A request: the query string ([request.args]) and the JSON body
    ([request.get_json()], [None] without one). *)
Record Request : Type := mkRequest {
  args : list (string * string);
  get_json : option Body
}.

(** [request.args.get(key, default, type=int)]: the default also replaces
    a value that [int] rejects. *)
Definition args_get_int (req : Request) (key : string) (default : Z) : Z :=
  match Py.lookup key (args req) with
  | None => default
  | Some v =>
      match Py.int_of_string v with
      | Ok z => z
      | Raise _ => default
      end
  end.

(** ** SQL: the queries the views issue *)

Module Sql.

(** [order_by(Question.id)]: a stable insertion sort on the key. *)
Fixpoint insert_by {A : Type} (key : A -> Z) (x : A) (l : list A) : list A :=
  match l with
  | [] => [x]
  | y :: l' => if key x <? key y then x :: l else y :: insert_by key x l'
  end.

Fixpoint order_by {A : Type} (key : A -> Z) (l : list A) : list A :=
  match l with
  | [] => []
  | x :: l' => insert_by key x (order_by key l')
  end.

(** [column.notin_(ids)]. *)
Definition notin_ (x : Z) (ids : list Z) : bool :=
  negb (existsb (Z.eqb x) ids).

(** [one_or_none()] on the rows a filter keeps; more than one row
    raises. *)
Definition one_or_none {A : Type} (rows : list A) : result (option A) :=
  match rows with
  | [] => Ok None
  | [r] => Ok (Some r)
  | _ => Raise StoreError
  end.

(** [Category.query.get(id)]: the row of that primary key. *)
Definition get (cats : list Category) (i : Z) : option Category :=
  find (fun c => cat_id c =? i) cats.

(** *** [ILIKE]

    In the pattern [%] stands for any run of characters, [_] for any
    one character, and a backslash makes the next character literal;
    letters compare without case. *)
Definition lower (c : ascii) : ascii :=
  let n := N_of_ascii c in
  if ((65 <=? n) && (n <=? 90))%N then ascii_of_N (n + 32) else c.

Definition eqb_ci (a b : ascii) : bool := Ascii.eqb (lower a) (lower b).

Fixpoint like (p t : list ascii) {struct p} : bool :=
  match p with
  | [] => match t with [] => true | _ :: _ => false end
  | c :: p' =>
      if Ascii.eqb c "%"%char then
        (fix star (t : list ascii) : bool :=
           like p' t || match t with
                        | [] => false
                        | _ :: t' => star t'
                        end) t
      else if Ascii.eqb c "_"%char then
        match t with
        | [] => false
        | _ :: t' => like p' t'
        end
      else if Ascii.eqb c "\"%char then
        match p' with
        | [] => false
        | e :: p'' =>
            match t with
            | [] => false
            | d :: t' => eqb_ci e d && like p'' t'
            end
        end
      else
        match t with
        | [] => false
        | d :: t' => eqb_ci c d && like p' t'
        end
  end.

Definition ilike (text pattern : string) : bool :=
  like (list_ascii_of_string pattern) (list_ascii_of_string text).

End Sql.

(** ** Flask: what a view hands back and how it becomes a response *)

(** A view returns the response [jsonify] built, or falls off its end and
    returns [None]. *)
Inductive view_rv : Type :=
| RvNone
| RvJson (o : pyobj).

Definition jsonify (o : pyobj) : view_rv := RvJson o.

Inductive Payload : Type :=
| Json (o : pyobj)
| ErrorPage (description : option string).

Record Response : Type := mkResponse {
  status : Z;
  payload : Payload
}.

(** The error handlers [create_app] registers, by status code: the
    function ends with the note that they are still to be written and
    returns the application with none. *)
Definition error_handlers : list (Z * (option string -> Response)) := [].

Fixpoint find_handler (code : Z) (hs : list (Z * (option string -> Response)))
  : option (option string -> Response) :=
  match hs with
  | [] => None
  | (c, h) :: hs' => if c =? code then Some h else find_handler code hs'
  end.

(** An [HTTPException] without a handler is its own response: the status
    code with the library's error page. *)
Definition handle_http_exception (code : Z) (description : option string) : Response :=
  match find_handler code error_handlers with
  | Some h => h description
  | None => mkResponse code (ErrorPage description)
  end.

(** Any other exception, and a view that returned [None], end as an
    internal server error. *)
Definition full_dispatch_request (rv : result view_rv) : Response :=
  match rv with
  | Ok (RvJson o) => mkResponse 200 (Json o)
  | Ok RvNone => handle_http_exception 500 None
  | Raise (HTTPException code description) => handle_http_exception code description
  | Raise _ => handle_http_exception 500 None
  end.

(** The JSON body of the response holds [key] with value [v]. *)
Definition body_has (r : Response) (key : string) (v : pyobj) : Prop :=
  match payload r with
  | Json (PyDict items) => In (PyStr key, v) items
  | _ => False
  end.

Definition len {A : Type} (l : list A) : Z := Z.of_nat (List.length l).

(** ** The application *)

Section Flaskr.

(** [Question.format], [Question.insert] and [Question.delete] of
    [models.py]; [random.randint] for the one draw a quiz request
    makes. *)
Variable format : Question -> pyobj.
Variable insert : Store -> NewQuestion -> result Store.
Variable delete : Store -> Question -> result Store.
Variable randint : Z -> Z -> Z.

Definition QUESTIONS_PER_PAGE : Z := 10.

Definition paginate_questions (request : Request) (selection : list Question)
  : list pyobj :=
  let page := args_get_int request "page" 1 in
  let start := (page - 1) * QUESTIONS_PER_PAGE in
  let end_ := start + QUESTIONS_PER_PAGE in
  let questions := map format selection in
  let current_questions := Py.slice questions start end_ in
  current_questions.

(** The dict of the categories, in the order of their ids (which are
    primary keys, so no key repeats). *)
Definition get_categories (st : Store) : pyobj :=
  let selection := Sql.order_by cat_id (categories st) in
  PyDict (map (fun c => (PyInt (cat_id c), PyStr (cat_type c))) selection).

(** [GET /questions] *)
Definition retrive_questions (st : Store) (request : Request) : result view_rv :=
  let selection := Sql.order_by id (questions st) in
  let current_questions := paginate_questions request selection in
  if len current_questions =? 0 then abort 404 None
  else
    Ok (jsonify (PyDict
      [ (PyStr "questions", PyList current_questions);
        (PyStr "totalQuestions", PyInt (len (questions st)));
        (PyStr "categories", get_categories st) ])).

(** [DELETE /questions/<int:question_id>]: the [abort(404)] is raised
    inside the [try], and the view has no [return]. *)
Definition delete_question (st : Store) (question_id : Z)
  : Store * result view_rv :=
  let attempt : result Store :=
    question <- Sql.one_or_none
                  (filter (fun q => id q =? question_id) (questions st)) ;;
    match question with
    | None => abort 404 None
    | Some q => delete st q
    end in
  match attempt with
  | Ok st' => (st', Ok RvNone)
  | Raise _ => (st, abort 422 None)
  end.

(** The rows the search branch selects. *)
Definition search_selection (st : Store) (search : string) : list Question :=
  filter (fun q => Sql.ilike (question q) ("%" ++ search ++ "%")%string)
         (Sql.order_by id (questions st)).

(** [POST /questions]: a search when the body has a truthy [search],
    the creation of a question otherwise.  The body is read before the
    [try]; inside it only [insert] can raise.  Only the requests whose
    body [get_json] parsed are covered by the statements below: what
    Flask does with a body that is missing or does not parse is taken
    here as the [AttributeError] of [None.get]. *)
Definition create_question (st : Store) (request : Request)
  : Store * result view_rv :=
  match get_json request with
  | None => (st, Raise AttributeError)
  | Some body =>
      let new := mkNewQuestion (b_question body) (b_difficulty body)
                               (b_category body) (b_answer body) in
      let search := b_search body in
      let create : Store * result view_rv :=
        match insert st new with
        | Raise _ => (st, abort 422 None)
        | Ok st' =>
            let selection := Sql.order_by id (questions st') in
            let current_questions := paginate_questions request selection in
            (st', Ok (jsonify (PyDict
              [ (PyStr "questions", PyList current_questions);
                (PyStr "totalQuestions", PyInt (len (questions st')));
                (PyStr "categories", get_categories st') ])))
        end in
      match search with
      | Some term =>
          if Py.truthy_str term then
            let selection := search_selection st term in
            let current_questions := paginate_questions request selection in
            (st, Ok (jsonify (PyDict
              [ (PyStr "categories", get_categories st);
                (PyStr "questions", PyList current_questions);
                (PyStr "totalQuestions", PyInt (len selection)) ])))
          else create
      | None => create
      end
  end.

(** [GET /categories/<int:category_id>/questions] *)
Definition get_questions_by_category (st : Store) (request : Request)
  (category_id : Z) : result view_rv :=
  let selection := filter (fun q => category q =? category_id) (questions st) in
  let current_questions := paginate_questions request selection in
  if len current_questions =? 0 then abort 404 None
  else
    Ok (jsonify (PyDict
      [ (PyStr "questions", PyList current_questions);
        (PyStr "totalQuestions", PyInt (len (questions st)));
        (PyStr "categories", get_categories st) ])).

(** The rows a quiz request draws from. *)
Definition quiz_questions (st : Store) (found : option Category)
  (previous_questions : list Z) : list Question :=
  match found with
  | Some c =>
      if 0 <? len previous_questions then
        filter (fun q => Sql.notin_ (id q) previous_questions
                         && (category q =? cat_id c))
               (questions st)
      else
        filter (fun q => category q =? cat_id c) (questions st)
  | None =>
      if 0 <? len previous_questions then
        filter (fun q => Sql.notin_ (id q) previous_questions) (questions st)
      else
        questions st
  end.

(** [POST /quizzes] *)
Definition play_quiz (st : Store) (request : Request) : result view_rv :=
  try_except
    (body <- match get_json request with
             | Some b => Ok b
             | None => Raise TypeError
             end ;;
     quiz_category <- match b_quiz_category body with
                      | Some d => Ok d
                      | None => Raise KeyError
                      end ;;
     raw_id <- Py.subscript quiz_category "id" ;;
     category_id <- Py.int raw_id ;;
     let found := Sql.get (categories st) category_id in
     previous_questions <- match b_previous_questions body with
                           | Some l => Ok l
                           | None => Raise KeyError
                           end ;;
     let questions := quiz_questions st found previous_questions in
     let max := len questions - 1 in
     question <- (if 0 <? max then
                    q <- Py.getitem questions (randint 0 max) ;;
                    Ok (format q)
                  else Ok (PyBool false)) ;;
     Ok (jsonify (PyDict [ (PyStr "question", question) ])))
    (abort 500 (Some "Error loading question")).

End Flaskr.

(** ** A reference [models.py] *)

Module Models.

(** Modelled from the spec: [Question.format] of [models.py], the row
    as a dict of its five columns. *)
Definition format (q : Question) : pyobj :=
  PyDict [ (PyStr "id", PyInt (id q));
           (PyStr "question", PyStr (question q));
           (PyStr "answer", PyStr (answer q));
           (PyStr "category", PyInt (category q));
           (PyStr "difficulty", PyInt (difficulty q)) ].

Definition next_id (rows : list Question) : Z :=
  1 + fold_right (fun q m => Z.max (id q) m) 0 rows.

Definition column (v : option scalar) : result Z :=
  match v with
  | Some s => Py.int s
  | None => Raise StoreError
  end.

(** Modelled from the spec: [Question.insert] of [models.py]; the new
    row gets a fresh id and the table grows by one. *)
Definition insert (st : Store) (new : NewQuestion) : result Store :=
  match new_question new, new_answer new with
  | Some q, Some a =>
      c <- column (new_category new) ;;
      d <- column (new_difficulty new) ;;
      Ok (mkStore (questions st ++ [mkQuestion (next_id (questions st)) q a c d])
                  (categories st))
  | _, _ => Raise StoreError
  end.

(** Modelled from the spec: [Question.delete] of [models.py]; lookup by
    the id finds nothing afterwards. *)
Definition delete (st : Store) (q : Question) : result Store :=
  Ok (mkStore (filter (fun r => negb (id r =? id q)) (questions st))
              (categories st)).

End Models.

(** ** The search filter and the eligible questions, in the words of
    the specification *)

Module Spec.

Fixpoint prefix_ci (p t : list ascii) : bool :=
  match p, t with
  | [], _ => true
  | _ :: _, [] => false
  | a :: p', b :: t' => Sql.eqb_ci a b && prefix_ci p' t'
  end.

Fixpoint substring_ci (p t : list ascii) : bool :=
  prefix_ci p t ||
  match t with
  | [] => false
  | _ :: t' => substring_ci p t'
  end.

(** The text contains the term as a substring, letters compared without
    case. *)
Definition contains_ci (term text : string) : bool :=
  substring_ci (list_ascii_of_string term) (list_ascii_of_string text).

(** The eligible questions of a quiz turn: those of the category asked
    for, when there is one, that are not excluded. *)
Definition eligible (st : Store) (category_filter : option Z)
  (excluded : list Z) : list Question :=
  filter (fun q => match category_filter with
                   | Some c => category q =? c
                   | None => true
                   end && negb (existsb (Z.eqb (id q)) excluded))
         (questions st).

End Spec.

(** ** Sample data *)

Module Sample.

Definition q16 : Question := mkQuestion 16 "Which Dutch graphic artist drew optical illusions?" "Escher" 1 1.
Definition q17 : Question := mkQuestion 17 "La Giaconda is better known as what?" "Mona Lisa" 1 3.
Definition q20 : Question := mkQuestion 20 "What is the heaviest organ in the human body?" "The Liver" 1 4.
Definition q21 : Question := mkQuestion 21 "Who discovered penicillin?" "Alexander Fleming" 1 3.
Definition q5 : Question := mkQuestion 5 "Whose autobiography is entitled I Know Why the Caged Bird Sings?" "Maya Angelou" 4 2.

Definition science : Category := mkCategory 1 "Science".
Definition history : Category := mkCategory 4 "History".

Definition three_science : Store := mkStore [q16; q17; q20] [science; history].
Definition four_science : Store := mkStore [q16; q17; q20; q21] [science; history].
Definition one_question : Store := mkStore [q20] [science; history].
Definition mixed : Store := mkStore [q20; q5; q16] [science; history].

Definition quiz_request (category_id : scalar) (previous : list Z) : Request :=
  mkRequest []
    (Some (mkBody None None None None None
                  (Some [("type", SStr "Science"); ("id", category_id)])
                  (Some previous))).

Definition search_request (term : string) : Request :=
  mkRequest [] (Some (mkBody None None None None (Some term) None None)).

Definition page_request (page : string) : Request :=
  mkRequest [("page", page)] None.

Definition seen : list Z := [16].

Definition last_draw (a b : Z) : Z := b.

End Sample.

(** ** Vocabulary of the statements *)

(** The page the request asks for. *)
Definition page_of (request : Request) : Z := args_get_int request "page" 1.

(** Pages [1 .. k], one request each. *)
Definition pages (format : Question -> pyobj) (k : nat) (req : nat -> Request)
  (items : list Question) : list (list pyobj) :=
  map (fun i => paginate_questions format (req i) items) (seq 0 k).

(** The body of the request is a dict with a [quiz_category] whose [id]
    reads as the integer [category_id], and a [previous_questions]
    list. *)
Definition quiz_request_of (request : Request) (category_id : Z)
  (previous : list Z) : Prop :=
  exists body quiz_category raw_id,
    get_json request = Some body
    /\ b_quiz_category body = Some quiz_category
    /\ Py.lookup "id" quiz_category = Some raw_id
    /\ Py.int raw_id = Ok category_id
    /\ b_previous_questions body = Some previous.

(** The response of [play_quiz] with a given answer. *)
Definition quiz_answer (answer : pyobj) : result view_rv :=
  Ok (jsonify (PyDict [ (PyStr "question", answer) ])).

(** The request carries a JSON body with the truthy search term
    [term]. *)
Definition search_request_of (request : Request) (term : string) : Prop :=
  exists body,
    get_json request = Some body
    /\ b_search body = Some term
    /\ Py.truthy_str term = true.

(** A character that stands for itself in a [LIKE] pattern. *)
Definition plain_char (c : ascii) : bool :=
  negb (Ascii.eqb c "%"%char || Ascii.eqb c "_"%char || Ascii.eqb c "\"%char).

(** The order [order_by] produces. *)
Definition by_key {A : Type} (key : A -> Z) (x y : A) : Prop := key x <= key y.

(** Twelve rows, and the requests for their two pages. *)
Definition twelve : list Question :=
  map (fun n => mkQuestion (Z.of_nat n) "Q" "A" 1 1) (seq 1 12).

Definition two_pages (i : nat) : Request :=
  match i with
  | O => Sample.page_request "1"
  | S _ => Sample.page_request "2"
  end.

(** [GET /categories] *)
Definition retrive_categories (st : Store) : result view_rv :=
  Ok (jsonify (PyDict [ (PyStr "categories", get_categories st) ])).

(** The query string has no usable [page]: the key is missing, or [int]
    rejects its value. *)
Definition no_page (request : Request) : Prop :=
  Py.lookup "page" (args request) = None
  \/ exists v e, Py.lookup "page" (args request) = Some v
                 /\ Py.int_of_string v = Raise e.

(** Keys strictly ascending. *)
Definition before {A : Type} (key : A -> Z) (x y : A) : Prop := key x < key y.

(** The entry of a category in the dict of [get_categories]. *)
Definition category_item (c : Category) : pyobj * pyobj :=
  (PyInt (cat_id c), PyStr (cat_type c)).

(** The same rows as [Sample.four_science], stored in another order. *)
Definition four_science_shuffled : Store :=
  mkStore [Sample.q21; Sample.q16; Sample.q20; Sample.q17]
          (categories Sample.four_science).

(** Requests with a body that lacks [previous_questions], and with a
    search body and a page. *)
Definition quiz_without_previous : Request :=
  mkRequest []
    (Some (mkBody None None None None None (Some [("id", SInt 1)]) None)).

Definition search_page_request (term page : string) : Request :=
  mkRequest [("page", page)]
    (Some (mkBody None None None None (Some term) None None)).

(** Two strings with the same letters, case apart. *)
Definition same_letters (a b : string) : Prop :=
  map Sql.lower (list_ascii_of_string a) = map Sql.lower (list_ascii_of_string b).

(** The body of the request is a dict with a [quiz_category] whose [id]
    reads as the integer [category_id]; nothing is said of
    [previous_questions]. *)
Definition quiz_category_of (request : Request) (category_id : Z) : Prop :=
  exists body quiz_category raw_id,
    get_json request = Some body
    /\ b_quiz_category body = Some quiz_category
    /\ Py.lookup "id" quiz_category = Some raw_id
    /\ Py.int raw_id = Ok category_id.

(** A quiz request for category 99 that carries no
    [previous_questions]. *)
Definition quiz_unknown_without_previous : Request :=
  mkRequest []
    (Some (mkBody None None None None None
                  (Some [("type", SStr "click"); ("id", SStr "99")]) None)).

(** Exclusion lists of the quiz requests used below. *)
Definition seen_two : list Z := [16; 17].
Definition seen_three : list Z := [16; 17; 20].

(** * Properties *)

(** ** Slices *)

Lemma slice_nil {A : Type} (start stop : Z) :
  Py.slice (@nil A) start stop = [].
Proof.
  unfold Py.slice. now rewrite skipn_nil, firstn_nil.
Qed.

Lemma slice_length_le {A : Type} (l : list A) (start : Z) :
  (List.length (Py.slice l start (start + 10)) <= 10)%nat.
Proof.
  unfold Py.slice, Py.clamp.
  rewrite length_firstn.
  destruct (start <? 0) eqn:Hs; destruct (start + 10 <? 0) eqn:He;
    apply Z.ltb_lt in Hs || apply Z.ltb_ge in Hs;
    apply Z.ltb_lt in He || apply Z.ltb_ge in He; lia.
Qed.

(** A window of ten from a non-negative start is [firstn]/[skipn]. *)
Lemma slice_window {A : Type} (l : list A) (start : Z) :
  0 <= start ->
  Py.slice l start (start + 10) = firstn 10 (skipn (Z.to_nat start) l).
Proof.
  intros Hstart. unfold Py.slice, Py.clamp.
  destruct (start <? 0) eqn:Hs; [apply Z.ltb_lt in Hs; lia|].
  destruct (start + 10 <? 0) eqn:He; [apply Z.ltb_lt in He; lia|].
  set (n := Z.of_nat (List.length l)).
  destruct (Z_le_gt_dec n start) as [Hout | Hin].
  - (* the start is past the end *)
    rewrite (skipn_all2 (n := Z.to_nat (Z.min start n))) by (subst n; lia).
    rewrite (skipn_all2 (n := Z.to_nat start)) by (subst n; lia).
    now rewrite !firstn_nil.
  - replace (Z.min start n) with start by lia.
    destruct (Z_le_gt_dec (start + 10) n) as [Hfull | Hshort].
    + replace (Z.min (start + 10) n - start) with 10 by lia. reflexivity.
    + assert (Hlen : List.length (skipn (Z.to_nat start) l)
                     = Z.to_nat (Z.min (start + 10) n - start)).
      { rewrite length_skipn. subst n. lia. }
      rewrite <- Hlen, firstn_all.
      symmetry. apply firstn_all2. rewrite Hlen. lia.
Qed.

Lemma firstn_plus {A : Type} (a b : nat) (l : list A) :
  firstn (a + b) l = firstn a l ++ firstn b (skipn a l).
Proof.
  revert l. induction a as [| a IH]; intros l; simpl.
  - reflexivity.
  - destruct l as [| x l]; simpl.
    + now rewrite firstn_nil.
    + now rewrite IH.
Qed.

Section Pagination.

Variable format : Question -> pyobj.

Lemma paginate_questions_window (request : Request) (items : list Question) :
  1 <= page_of request ->
  paginate_questions format request items
  = map format (firstn 10 (skipn (Z.to_nat ((page_of request - 1) * 10)) items)).
Proof.
  intros Hpage. unfold paginate_questions, QUESTIONS_PER_PAGE.
  fold (page_of request).
  rewrite slice_window by lia.
  now rewrite skipn_map, firstn_map.
Qed.

(** C2: for a page of at least 1, [paginate_questions] returns the
    (formatted) items from position [(page-1)*10] up to, and not
    including, [(page-1)*10 + 10], clipped to the end of the sequence;
    when [(page-1)*10] is at or past the length the result is empty. *)
Theorem paginate_questions_slice
  (request : Request) (items : list Question) (page : Z) :
  page_of request = page ->
  1 <= page ->
  paginate_questions format request items
  = map format (firstn 10 (skipn (Z.to_nat ((page - 1) * 10)) items))
  /\ (len items <= (page - 1) * 10 ->
      paginate_questions format request items = []).
Proof.
  intros Hreq Hpage. subst page.
  rewrite paginate_questions_window by assumption.
  split; [reflexivity|].
  unfold len. intros Hpast.
  rewrite skipn_all2 by lia. now rewrite firstn_nil.
Qed.

Lemma paginate_questions_length (request : Request) (items : list Question) :
  (List.length (paginate_questions format request items) <= 10)%nat.
Proof.
  unfold paginate_questions, QUESTIONS_PER_PAGE. apply slice_length_le.
Qed.

Lemma paginate_questions_nil (request : Request) :
  paginate_questions format request [] = [].
Proof.
  unfold paginate_questions. apply slice_nil.
Qed.

Lemma pages_concat (items : list Question) (req : nat -> Request) (k : nat) :
  (forall i, (i < k)%nat -> page_of (req i) = Z.of_nat (S i)) ->
  List.concat (pages format k req items) = map format (firstn (10 * k) items).
Proof.
  induction k as [| k IH]; intros Hreq.
  - now rewrite Nat.mul_0_r.
  - replace (10 * S k)%nat with (10 * k + 10)%nat by lia.
    rewrite firstn_plus, map_app.
    unfold pages in *. rewrite seq_S, map_app, concat_app.
    rewrite IH by (intros i Hi; apply Hreq; lia).
    cbn [Nat.add map List.concat]. rewrite app_nil_r.
    rewrite paginate_questions_window by (rewrite Hreq; lia).
    rewrite Hreq by lia.
    now replace (Z.to_nat ((Z.of_nat (S k) - 1) * 10)) with (10 * k)%nat by lia.
Qed.

(** C3: every page has at most 10 elements, and the pages [1 .. k] of a
    fixed source, concatenated in order, are its first [10 * k]
    elements (all of them when it is shorter), in the original
    order. *)
Theorem paginate_questions_pages
  (items : list Question) (k : nat) (req : nat -> Request) :
  (forall i, (i < k)%nat -> page_of (req i) = Z.of_nat (S i)) ->
  (forall request,
      (List.length (paginate_questions format request items) <= 10)%nat)
  /\ List.concat (pages format k req items) = map format (firstn (10 * k) items).
Proof.
  intros Hreq. split.
  - intros request. apply paginate_questions_length.
  - now apply pages_concat.
Qed.

End Pagination.

(** ** The quiz *)

Lemma len_zero_nil {A : Type} (l : list A) : (0 <? len l) = false -> l = [].
Proof.
  unfold len. intros H. apply Z.ltb_ge in H.
  destruct l; [reflexivity | simpl in H; lia].
Qed.

Lemma quiz_questions_eligible (st : Store) (found : option Category)
  (previous : list Z) :
  quiz_questions st found previous
  = Spec.eligible st (option_map cat_id found) previous.
Proof.
  unfold quiz_questions, Spec.eligible, Sql.notin_.
  destruct found as [c |]; simpl;
    destruct (0 <? len previous) eqn:Hprev.
  - apply filter_ext. intros q. apply andb_comm.
  - apply len_zero_nil in Hprev. subst previous.
    apply filter_ext. intros q. simpl. now rewrite andb_true_r.
  - reflexivity.
  - apply len_zero_nil in Hprev. subst previous. simpl.
    induction (questions st) as [| q l IH]; simpl; [reflexivity | now rewrite <- IH].
Qed.

Lemma getitem_in_range {A : Type} (l : list A) (i : Z) :
  0 <= i < len l ->
  exists a, nth_error l (Z.to_nat i) = Some a /\ Py.getitem l i = Ok a.
Proof.
  unfold len, Py.getitem. intros Hi.
  destruct (i <? 0) eqn:Hneg; [apply Z.ltb_lt in Hneg; lia|].
  destruct (Z.of_nat (List.length l) <=? i) eqn:Hbig;
    [apply Z.leb_le in Hbig; lia|].
  simpl.
  destruct (nth_error l (Z.to_nat i)) as [a |] eqn:Hnth.
  - rewrite Hneg. now exists a.
  - apply nth_error_None in Hnth. lia.
Qed.

Section Quiz.

Variable format : Question -> pyobj.
Variable randint : Z -> Z -> Z.

(** With at most one row to draw from, the answer is [False]. *)
Lemma play_quiz_few (st : Store) (request : Request) (category_id : Z)
  (previous : list Z) :
  quiz_request_of request category_id previous ->
  (List.length (quiz_questions st (Sql.get (categories st) category_id) previous)
   <= 1)%nat ->
  play_quiz format randint st request = quiz_answer (PyBool false).
Proof.
  intros (body & qc & raw & Hjson & Hqc & Hid & Hint & Hprev) Hfew.
  unfold play_quiz, Py.subscript.
  rewrite Hjson; simpl. rewrite Hqc; simpl. rewrite Hid; simpl.
  rewrite Hint; simpl. rewrite Hprev; simpl.
  set (qs := quiz_questions st _ previous) in *.
  destruct (0 <? len qs - 1) eqn:Hmax.
  - apply Z.ltb_lt in Hmax. unfold len in Hmax. lia.
  - reflexivity.
Qed.

(** With two rows or more, and a draw within its bounds, the answer is
    one of the rows. *)
Lemma play_quiz_many (st : Store) (request : Request) (category_id : Z)
  (previous : list Z) :
  quiz_request_of request category_id previous ->
  (forall a b, a <= b -> a <= randint a b <= b) ->
  (2 <= List.length
          (quiz_questions st (Sql.get (categories st) category_id) previous))%nat ->
  exists q,
    In q (quiz_questions st (Sql.get (categories st) category_id) previous)
    /\ play_quiz format randint st request = quiz_answer (format q).
Proof.
  intros (body & qc & raw & Hjson & Hqc & Hid & Hint & Hprev) Hrand Hmany.
  unfold play_quiz, Py.subscript.
  rewrite Hjson; simpl. rewrite Hqc; simpl. rewrite Hid; simpl.
  rewrite Hint; simpl. rewrite Hprev; simpl.
  set (qs := quiz_questions st _ previous) in *.
  destruct (0 <? len qs - 1) eqn:Hmax.
  - apply Z.ltb_lt in Hmax.
    destruct (getitem_in_range qs (randint 0 (len qs - 1))) as (q & Hnth & Hget).
    { specialize (Hrand 0 (len qs - 1)). lia. }
    exists q. split.
    + eapply nth_error_In; eassumption.
    + now rewrite Hget.
  - apply Z.ltb_ge in Hmax. unfold len in Hmax. lia.
Qed.

Lemma eligible_in (st : Store) (c : Z) (excluded : list Z) (q : Question) :
  In q (Spec.eligible st (Some c) excluded) ->
  In q (questions st) /\ category q = c /\ ~ In (id q) excluded.
Proof.
  unfold Spec.eligible. intros Hq.
  apply filter_In in Hq as [Hin Hkeep].
  apply andb_true_iff in Hkeep as [Hcat Hex].
  apply Z.eqb_eq in Hcat. apply negb_true_iff in Hex.
  repeat split; [assumption | assumption |].
  intros Hseen.
  assert (Htrue : existsb (Z.eqb (id q)) excluded = true).
  { apply existsb_exists. exists (id q). split; [assumption | apply Z.eqb_refl]. }
  congruence.
Qed.

(** X18: with a category that exists and two eligible questions or more,
    the answer is a question of that category outside the exclusion
    set. *)
Lemma play_quiz_known_category (st : Store) (request : Request)
  (category_id : Z) (previous : list Z) (c : Category) :
  quiz_request_of request category_id previous ->
  Sql.get (categories st) category_id = Some c ->
  (forall a b, a <= b -> a <= randint a b <= b) ->
  (2 <= List.length (Spec.eligible st (Some category_id) previous))%nat ->
  exists q,
    In q (questions st) /\ category q = category_id /\ ~ In (id q) previous
    /\ play_quiz format randint st request = quiz_answer (format q).
Proof.
  intros Hreq Hget Hrand Hmany.
  assert (Hid : cat_id c = category_id).
  { unfold Sql.get in Hget. apply find_some in Hget as [_ Hc].
    now apply Z.eqb_eq in Hc. }
  pose proof (quiz_questions_eligible st (Some c) previous) as Hel.
  simpl option_map in Hel. rewrite Hid in Hel.
  destruct (play_quiz_many st request category_id previous Hreq Hrand)
    as (q & Hin & Hplay).
  { now rewrite Hget, Hel. }
  rewrite Hget, Hel in Hin. apply eligible_in in Hin as (Hq & Hcat & Hseen).
  exists q. now repeat split.
Qed.

(** C10 (amended): a quiz request that carries a [previous_questions]
    list and whose category id reads as an integer that is no
    category's id is answered with status 200, not failed: the answer
    is drawn from all questions outside the exclusion set, as when no
    category filter is given.  It is one of them when two or more
    remain, and [False] when none remains. *)
Theorem play_quiz_unknown_category (st : Store) (request : Request)
  (category_id : Z) (previous : list Z) :
  quiz_request_of request category_id previous ->
  Sql.get (categories st) category_id = None ->
  (forall a b, a <= b -> a <= randint a b <= b) ->
  exists answer,
    play_quiz format randint st request = quiz_answer answer
    /\ status (full_dispatch_request (play_quiz format randint st request)) = 200
    /\ ((2 <= List.length (Spec.eligible st None previous))%nat ->
        exists q, In q (Spec.eligible st None previous) /\ answer = format q)
    /\ (Spec.eligible st None previous = [] -> answer = PyBool false).
Proof.
  intros Hreq Hnone Hrand.
  pose proof (quiz_questions_eligible st None previous) as Hel.
  simpl option_map in Hel.
  destruct (le_lt_dec (List.length (Spec.eligible st None previous)) 1)
    as [Hfew | Hmany].
  - exists (PyBool false).
    assert (Hplay : play_quiz format randint st request = quiz_answer (PyBool false)).
    { apply (play_quiz_few st request category_id previous Hreq).
      now rewrite Hnone, Hel. }
    rewrite Hplay. split; [reflexivity |]. split; [reflexivity |].
    split; [lia | reflexivity].
  - destruct (play_quiz_many st request category_id previous Hreq Hrand)
      as (q & Hin & Hplay).
    { rewrite Hnone, Hel. lia. }
    rewrite Hnone, Hel in Hin.
    exists (format q). rewrite Hplay.
    split; [reflexivity |]. split; [reflexivity |].
    split; [intros _; now exists q |].
    intros Hempty. rewrite Hempty in Hmany. simpl in Hmany. lia.
Qed.

End Quiz.

(** ** Queries *)

Lemma insert_by_perm {A : Type} (key : A -> Z) (x : A) (l : list A) :
  Permutation (x :: l) (Sql.insert_by key x l).
Proof.
  induction l as [| y l IH]; simpl.
  - apply Permutation_refl.
  - destruct (key x <? key y).
    + apply Permutation_refl.
    + eapply perm_trans; [apply perm_swap | now apply perm_skip].
Qed.

Lemma order_by_perm {A : Type} (key : A -> Z) (l : list A) :
  Permutation l (Sql.order_by key l).
Proof.
  induction l as [| x l IH]; simpl.
  - apply perm_nil.
  - eapply perm_trans; [apply perm_skip, IH | apply insert_by_perm].
Qed.

Lemma order_by_in {A : Type} (key : A -> Z) (l : list A) (x : A) :
  In x (Sql.order_by key l) <-> In x l.
Proof.
  split; apply Permutation_in;
    [apply Permutation_sym |]; apply order_by_perm.
Qed.

Lemma insert_by_sorted {A : Type} (key : A -> Z) (x : A) (l : list A) :
  Sorted (by_key key) l -> Sorted (by_key key) (Sql.insert_by key x l).
Proof.
  induction l as [| y l IH]; intros Hs; simpl.
  - repeat constructor.
  - destruct (key x <? key y) eqn:Hxy.
    + constructor; [assumption |]. constructor.
      apply Z.ltb_lt in Hxy. unfold by_key. lia.
    + apply Z.ltb_ge in Hxy. inversion Hs as [| ? ? Hl Hhd]; subst.
      constructor; [now apply IH |].
      destruct l as [| z l]; simpl.
      * now constructor.
      * destruct (key x <? key z); constructor.
        -- exact Hxy.
        -- now inversion Hhd.
Qed.

Lemma order_by_sorted {A : Type} (key : A -> Z) (l : list A) :
  Sorted (by_key key) (Sql.order_by key l).
Proof.
  induction l as [| x l IH]; simpl.
  - constructor.
  - now apply insert_by_sorted.
Qed.

Lemma filter_none {A : Type} (f : A -> bool) (l : list A) :
  (forall x, In x l -> f x = false) -> filter f l = [].
Proof.
  induction l as [| x l IH]; intros Hf; simpl.
  - reflexivity.
  - rewrite (Hf x) by now left. apply IH. intros y Hy. apply Hf. now right.
Qed.

(** ** The endpoints *)

Section Endpoints.

Variable format : Question -> pyobj.
Variable insert : Store -> NewQuestion -> result Store.
Variable delete : Store -> Question -> result Store.

Lemma create_question_search (st : Store) (request : Request) (term : string) :
  search_request_of request term ->
  create_question format insert st request
  = (st, Ok (jsonify (PyDict
       [ (PyStr "categories", get_categories st);
         (PyStr "questions",
          PyList (paginate_questions format request (search_selection st term)));
         (PyStr "totalQuestions", PyInt (len (search_selection st term))) ]))).
Proof.
  intros (body & Hjson & Hsearch & Htruthy).
  unfold create_question. now rewrite Hjson, Hsearch, Htruthy.
Qed.

(** C8: a search with a truthy term that no question matches is
    answered with status 200 and an empty [questions] list, not with a
    404. *)
Theorem search_without_match_succeeds
  (st : Store) (request : Request) (term : string) :
  search_request_of request term ->
  (forall q, In q (questions st) ->
             Sql.ilike (question q) ("%" ++ term ++ "%")%string = false) ->
  let response :=
    full_dispatch_request (snd (create_question format insert st request)) in
  fst (create_question format insert st request) = st
  /\ response
     = mkResponse 200 (Json (PyDict
         [ (PyStr "categories", get_categories st);
           (PyStr "questions", PyList []);
           (PyStr "totalQuestions", PyInt 0) ]))
  /\ status response = 200
  /\ body_has response "questions" (PyList []).
Proof.
  intros Hreq Hnone.
  assert (Hsel : search_selection st term = []).
  { unfold search_selection. apply filter_none.
    intros q Hq. apply Hnone. now apply order_by_in in Hq. }
  cbv zeta. rewrite (create_question_search st request term Hreq), Hsel.
  rewrite paginate_questions_nil. simpl.
  repeat split. right. now left.
Qed.

(** A listing whose page is empty: the view aborts with 404, and with
    no handler registered the response is the library's error page. *)
Lemma retrive_questions_empty_page (st : Store) (request : Request) :
  paginate_questions format request (Sql.order_by id (questions st)) = [] ->
  full_dispatch_request (retrive_questions format st request)
  = mkResponse 404 (ErrorPage None).
Proof.
  intros Hempty. unfold retrive_questions. now rewrite Hempty.
Qed.

(** Deleting an id that no row has: the 404 raised inside the [try] is
    caught by its bare [except], which aborts with 422. *)
Lemma delete_question_absent (st : Store) (question_id : Z) :
  (forall q, In q (questions st) -> id q <> question_id) ->
  delete_question delete st question_id = (st, abort 422 None).
Proof.
  intros Habsent. unfold delete_question.
  rewrite filter_none; [reflexivity |].
  intros q Hq. apply Z.eqb_neq. now apply Habsent.
Qed.

(** Deleting the one row of an id, when the store accepts it: the view
    ends without a [return]. *)
Lemma delete_question_present (st st' : Store) (question_id : Z) (q : Question) :
  filter (fun r => id r =? question_id) (questions st) = [q] ->
  delete st q = Ok st' ->
  delete_question delete st question_id = (st', Ok RvNone).
Proof.
  intros Hrow Hdel. unfold delete_question. rewrite Hrow. simpl.
  now rewrite Hdel.
Qed.

End Endpoints.

(** ** The search filter and substring containment *)

Lemma like_percent (p t : list ascii) :
  Sql.like ("%"%char :: p) t
  = Sql.like p t || match t with
                    | [] => false
                    | _ :: t' => Sql.like ("%"%char :: p) t'
                    end.
Proof.
  destruct t; reflexivity.
Qed.

Lemma like_percent_end (t : list ascii) : Sql.like ["%"%char] t = true.
Proof.
  induction t as [| c t IH].
  - reflexivity.
  - rewrite like_percent, IH. apply orb_true_r.
Qed.

Lemma like_plain (c : ascii) (p t : list ascii) :
  plain_char c = true ->
  Sql.like (c :: p) t
  = match t with
    | [] => false
    | d :: t' => Sql.eqb_ci c d && Sql.like p t'
    end.
Proof.
  unfold plain_char. intros Hc.
  apply negb_true_iff in Hc.
  apply orb_false_iff in Hc as [Hc Hesc].
  apply orb_false_iff in Hc as [Hpct Hund].
  simpl. now rewrite Hpct, Hund, Hesc.
Qed.

Lemma like_prefix (term t : list ascii) :
  forallb plain_char term = true ->
  Sql.like (term ++ ["%"%char]) t = Spec.prefix_ci term t.
Proof.
  revert t. induction term as [| c term IH]; intros t Hplain.
  - rewrite app_nil_l, like_percent_end. now destruct t.
  - simpl in Hplain. apply andb_true_iff in Hplain as [Hc Hterm].
    rewrite <- app_comm_cons, like_plain by assumption.
    destruct t as [| d t]; [reflexivity |].
    simpl. now rewrite IH.
Qed.

Lemma like_substring (term t : list ascii) :
  forallb plain_char term = true ->
  Sql.like ("%"%char :: term ++ ["%"%char]) t = Spec.substring_ci term t.
Proof.
  intros Hplain. induction t as [| d t IH].
  - rewrite like_percent, like_prefix by assumption. reflexivity.
  - rewrite like_percent, like_prefix, IH by assumption. reflexivity.
Qed.

Lemma list_ascii_of_string_app (a b : string) :
  list_ascii_of_string (a ++ b)%string
  = list_ascii_of_string a ++ list_ascii_of_string b.
Proof.
  induction a as [| c a IH]; simpl; [reflexivity | now rewrite IH].
Qed.

(** For a term without [%], [_] and backslash, the filter of the search
    branch is substring containment without case. *)
Lemma ilike_contains (term text : string) :
  forallb plain_char (list_ascii_of_string term) = true ->
  Sql.ilike text ("%" ++ term ++ "%")%string = Spec.contains_ci term text.
Proof.
  intros Hplain. unfold Sql.ilike, Spec.contains_ci.
  rewrite !list_ascii_of_string_app. simpl list_ascii_of_string at 1 3.
  now apply like_substring.
Qed.

Lemma by_key_trans {A : Type} (key : A -> Z) : Relations_1.Transitive (by_key key).
Proof.
  intros x y z. unfold by_key. lia.
Qed.

Lemma filter_strongly_sorted {A : Type} (R : A -> A -> Prop) (f : A -> bool)
  (l : list A) :
  StronglySorted R l -> StronglySorted R (filter f l).
Proof.
  induction 1 as [| x l Hl IH Hx]; simpl.
  - constructor.
  - destruct (f x); [| assumption].
    constructor; [assumption |].
    apply Forall_forall. intros y Hy. apply filter_In in Hy as [Hy _].
    rewrite Forall_forall in Hx. now apply Hx.
Qed.

Lemma search_selection_sorted (st : Store) (term : string) :
  Sorted (by_key id) (search_selection st term).
Proof.
  unfold search_selection.
  apply StronglySorted_Sorted, filter_strongly_sorted.
  apply Sorted_StronglySorted; [apply by_key_trans | apply order_by_sorted].
Qed.

(** X19: the rows a search for a term without pattern characters selects
    are the questions that contain it, by id ascending. *)
Lemma search_selection_plain (st : Store) (term : string) :
  forallb plain_char (list_ascii_of_string term) = true ->
  (forall q, In q (search_selection st term)
             <-> In q (questions st)
                 /\ Spec.contains_ci term (question q) = true)
  /\ Sorted (by_key id) (search_selection st term).
Proof.
  intros Hplain. split; [| apply search_selection_sorted].
  intros q. unfold search_selection.
  rewrite filter_In, order_by_in, ilike_contains by assumption.
  reflexivity.
Qed.

(** ** The code at concrete requests *)

Section Evaluations.

Variable format : Question -> pyobj.
Variable delete : Store -> Question -> result Store.
Variable randint : Z -> Z -> Z.

(** C1: with a store of one question, a request for all categories
    (id 0, which no category has) and nothing excluded, exactly one
    question is eligible; [play_quiz] answers [False], whatever the
    draw, since [max = len(questions) - 1] is 0 and the guard asks for
    [max > 0]. *)
Theorem play_quiz_single_candidate_false :
  Spec.eligible Sample.one_question None [] = [Sample.q20]
  /\ play_quiz format randint Sample.one_question
               (Sample.quiz_request (SInt 0) [])
     = Ok (jsonify (PyDict [ (PyStr "question", PyBool false) ])).
Proof.
  split; reflexivity.
Qed.

(** C4: deleting id 99 from a store without such a row: the view's
    [abort(404)] is caught by the bare [except] around it, and the
    response has status 422. *)
Theorem delete_question_missing_422 :
  (forall q, In q (questions Sample.three_science) -> id q <> 99)
  /\ full_dispatch_request (snd (delete_question delete Sample.three_science 99))
     = mkResponse 422 (ErrorPage None).
Proof.
  assert (Habsent : forall q, In q (questions Sample.three_science) -> id q <> 99).
  { intros q [<- | [<- | [<- | []]]]; discriminate. }
  split; [exact Habsent |].
  now rewrite (delete_question_absent delete _ 99 Habsent).
Qed.

(** C6: category 1 has the three questions 16, 17 and 20; a quiz
    request for category 1 that excludes 16 and 17 is answered [False]
    instead of question 20, whatever the draw. *)
Theorem play_quiz_three_science_false :
  Spec.eligible Sample.three_science (Some 1) [16; 17] = [Sample.q20]
  /\ play_quiz format randint Sample.three_science
               (Sample.quiz_request (SStr "1") [16; 17])
     = Ok (jsonify (PyDict [ (PyStr "question", PyBool false) ])).
Proof.
  split; reflexivity.
Qed.

(** C9: page 100 of a listing of four questions is empty; the response
    has status 404 and, no error handler being registered, the
    library's error page as its body: no JSON with [success] or with
    the message "Resource Not Found". *)
Theorem retrive_questions_page_100 :
  let response :=
    full_dispatch_request
      (retrive_questions format Sample.four_science (Sample.page_request "100")) in
  response = mkResponse 404 (ErrorPage None)
  /\ ~ body_has response "message" (PyStr "Resource Not Found")
  /\ ~ body_has response "success" (PyBool false).
Proof.
  cbv zeta. rewrite retrive_questions_empty_page.
  - split; [reflexivity |]. split; intros H; exact H.
  - rewrite paginate_questions_window by (vm_compute; discriminate).
    reflexivity.
Qed.

End Evaluations.

(** C5: deleting the existing question 16 removes the row, and the view
    then ends without a [return]: Flask has no response to send and
    answers with status 500, not with a body that holds
    [success: true]. *)
Theorem delete_question_existing_no_body :
  let outcome := delete_question Models.delete Sample.three_science 16 in
  outcome
  = (mkStore [Sample.q17; Sample.q20] (categories Sample.three_science), Ok RvNone)
  /\ full_dispatch_request (snd outcome) = mkResponse 500 (ErrorPage None)
  /\ ~ body_has (full_dispatch_request (snd outcome)) "success" (PyBool true).
Proof.
  cbv zeta.
  rewrite (delete_question_present Models.delete Sample.three_science
             (mkStore [Sample.q17; Sample.q20] (categories Sample.three_science))
             16 Sample.q16) by reflexivity.
  split; [reflexivity |]. split; [reflexivity |]. intros H; exact H.
Qed.

(** C7: the search term "_" selects question 20, whose text has no
    underscore: in the [ILIKE] pattern "%_%" the underscore stands for any
    one character. *)
Theorem search_underscore_selects_all :
  search_selection Sample.one_question "_" = [Sample.q20]
  /\ Spec.contains_ci "_" (question Sample.q20) = false.
Proof.
  split; vm_compute; reflexivity.
Qed.

(** ** The theorems at concrete inputs *)

Lemma paginate_questions_slice_witness :
  page_of (Sample.page_request "2") = 2
  /\ 1 <= 2
  /\ paginate_questions Models.format (Sample.page_request "2") twelve
     = map Models.format (firstn 10 (skipn (Z.to_nat ((2 - 1) * 10)) twelve))
  /\ (len twelve <= (2 - 1) * 10 ->
      paginate_questions Models.format (Sample.page_request "2") twelve = []).
Proof.
  split; [reflexivity |]. split; [lia |].
  apply (paginate_questions_slice Models.format (Sample.page_request "2") twelve 2);
    [reflexivity | lia].
Defined.

Lemma paginate_questions_pages_witness :
  (forall i, (i < 2)%nat -> page_of (two_pages i) = Z.of_nat (S i))
  /\ (forall request,
         (List.length (paginate_questions Models.format request twelve) <= 10)%nat)
  /\ List.concat (pages Models.format 2 two_pages twelve)
     = map Models.format (firstn (10 * 2) twelve).
Proof.
  assert (H : forall i, (i < 2)%nat -> page_of (two_pages i) = Z.of_nat (S i)).
  { intros [| [| i]] Hi; [reflexivity | reflexivity | lia]. }
  split; [exact H |].
  apply (paginate_questions_pages Models.format twelve 2 two_pages H).
Defined.

(** The claim C10 as it was made, at a request without
    [previous_questions]: the category id reads as 99, no category has
    that id, and the view fails with status 500. *)
Lemma play_quiz_unknown_category_no_previous :
  quiz_category_of quiz_unknown_without_previous 99
  /\ Sql.get (categories Sample.mixed) 99 = None
  /\ (forall a b, a <= b -> a <= Sample.last_draw a b <= b)
  /\ play_quiz Models.format Sample.last_draw Sample.mixed
               quiz_unknown_without_previous
     = abort 500 (Some "Error loading question")
  /\ status (full_dispatch_request
               (play_quiz Models.format Sample.last_draw Sample.mixed
                          quiz_unknown_without_previous)) = 500.
Proof.
  split; [do 3 eexists; repeat split; reflexivity |].
  split; [reflexivity |].
  split; [intros a b Hab; unfold Sample.last_draw; lia |].
  split; reflexivity.
Qed.

Lemma play_quiz_unknown_category_witness :
  quiz_request_of (Sample.quiz_request (SStr "99") Sample.seen) 99 Sample.seen
  /\ Sql.get (categories Sample.mixed) 99 = None
  /\ (forall a b, a <= b -> a <= Sample.last_draw a b <= b)
  /\ exists answer,
       play_quiz Models.format Sample.last_draw Sample.mixed
                 (Sample.quiz_request (SStr "99") Sample.seen)
       = quiz_answer answer
       /\ status (full_dispatch_request
                    (play_quiz Models.format Sample.last_draw Sample.mixed
                               (Sample.quiz_request (SStr "99") Sample.seen))) = 200
       /\ ((2 <= List.length (Spec.eligible Sample.mixed None Sample.seen))%nat ->
           exists q, In q (Spec.eligible Sample.mixed None Sample.seen)
                     /\ answer = Models.format q)
       /\ (Spec.eligible Sample.mixed None Sample.seen = [] ->
           answer = PyBool false).
Proof.
  assert (Hreq : quiz_request_of (Sample.quiz_request (SStr "99") Sample.seen) 99 Sample.seen).
  { do 3 eexists. repeat split; reflexivity. }
  assert (Hrand : forall a b, a <= b -> a <= Sample.last_draw a b <= b).
  { intros a b Hab. unfold Sample.last_draw. lia. }
  split; [exact Hreq |]. split; [reflexivity |]. split; [exact Hrand |].
  apply (play_quiz_unknown_category Models.format Sample.last_draw Sample.mixed
           (Sample.quiz_request (SStr "99") Sample.seen) 99 Sample.seen Hreq eq_refl Hrand).
Defined.

Lemma search_without_match_succeeds_witness :
  search_request_of (Sample.search_request "abcdefghijk") "abcdefghijk"
  /\ (forall q, In q (questions Sample.mixed) ->
                Sql.ilike (question q) ("%" ++ "abcdefghijk" ++ "%")%string = false)
  /\ full_dispatch_request
       (snd (create_question Models.format Models.insert Sample.mixed
                             (Sample.search_request "abcdefghijk")))
     = mkResponse 200 (Json (PyDict
         [ (PyStr "categories", get_categories Sample.mixed);
           (PyStr "questions", PyList []);
           (PyStr "totalQuestions", PyInt 0) ])).
Proof.
  assert (Hreq : search_request_of (Sample.search_request "abcdefghijk") "abcdefghijk").
  { eexists. repeat split; reflexivity. }
  assert (Hnone : forall q, In q (questions Sample.mixed) ->
            Sql.ilike (question q) ("%" ++ "abcdefghijk" ++ "%")%string = false).
  { intros q [<- | [<- | [<- | []]]]; vm_compute; reflexivity. }
  split; [exact Hreq |]. split; [exact Hnone |].
  apply (search_without_match_succeeds Models.format Models.insert Sample.mixed
           (Sample.search_request "abcdefghijk") "abcdefghijk" Hreq Hnone).
Defined.

(** * Further properties of the views *)

(** ** Pagination at its edges *)

Lemma block_of_slice {A : Type} (l : list A) (start stop : Z) :
  exists pre post, l = pre ++ Py.slice l start stop ++ post.
Proof.
  unfold Py.slice. cbv zeta.
  match goal with
  | |- exists pre post, l = pre ++ firstn ?k (skipn ?s l) ++ post =>
      exists (firstn s l), (skipn k (skipn s l));
      now rewrite (firstn_skipn k), (firstn_skipn s)
  end.
Qed.

Section PaginationEdges.

Variable format : Question -> pyobj.

(** X1: without a [page] in the query string, or with one that is not an
    integer, [paginate_questions] returns page 1: the first ten items. *)
Theorem paginate_questions_default_page
  (request : Request) (items : list Question) :
  no_page request ->
  paginate_questions format request items = map format (firstn 10 items).
Proof.
  intros Hno.
  assert (Hpage : page_of request = 1).
  { unfold page_of, args_get_int.
    destruct Hno as [Hnone | (v & e & Hsome & Hbad)].
    - now rewrite Hnone.
    - now rewrite Hsome, Hbad. }
  rewrite paginate_questions_window by lia.
  now rewrite Hpage.
Qed.

(** X2: page 0 is empty for every selection, so the listing of page 0
    aborts with 404 on every store. *)
Theorem paginate_questions_page_zero
  (request : Request) (items : list Question) (st : Store) :
  page_of request = 0 ->
  paginate_questions format request items = []
  /\ retrive_questions format st request = abort 404 None.
Proof.
  intros Hpage.
  assert (Hempty : forall l, paginate_questions format request l = []).
  { intros l. unfold paginate_questions, QUESTIONS_PER_PAGE.
    fold (page_of request). rewrite Hpage.
    unfold Py.slice, Py.clamp. simpl.
    replace (Z.to_nat _) with 0%nat by lia. reflexivity. }
  split; [apply Hempty |].
  unfold retrive_questions. now rewrite Hempty.
Qed.

(** X3: whatever the page, negative ones included, the result is one
    contiguous block of the formatted selection, in its order. *)
Theorem paginate_questions_block (request : Request) (items : list Question) :
  exists pre post,
    map format items = pre ++ paginate_questions format request items ++ post.
Proof.
  unfold paginate_questions. apply block_of_slice.
Qed.

Lemma paginate_questions_size (request : Request) (items : list Question) :
  1 <= page_of request ->
  List.length (paginate_questions format request items)
  = Nat.min 10 (List.length items - Z.to_nat ((page_of request - 1) * 10)).
Proof.
  intros Hpage. rewrite paginate_questions_window by assumption.
  now rewrite length_map, length_firstn, length_skipn.
Qed.

(** X4: for a page of at least 1 the result has [min 10 (n - (page-1)*10)]
    elements, and none when that is negative. *)
Theorem paginate_questions_count (request : Request) (items : list Question) :
  1 <= page_of request ->
  len (paginate_questions format request items)
  = Z.max 0 (Z.min 10 (len items - (page_of request - 1) * 10)).
Proof.
  intros Hpage. unfold len.
  rewrite paginate_questions_size by assumption. lia.
Qed.

(** X5: for a page of at least 1, [GET /questions] answers 200 when the
    store holds more than [(page-1)*10] questions and 404 otherwise. *)
Theorem retrive_questions_status (st : Store) (request : Request) :
  1 <= page_of request ->
  status (full_dispatch_request (retrive_questions format st request))
  = if (page_of request - 1) * 10 <? len (questions st) then 200 else 404.
Proof.
  intros Hpage. unfold retrive_questions, len.
  rewrite paginate_questions_size by assumption.
  rewrite <- (Permutation_length (order_by_perm id (questions st))).
  destruct ((page_of request - 1) * 10 <? Z.of_nat (List.length (questions st)))
    eqn:Hin.
  - apply Z.ltb_lt in Hin.
    destruct (Z.of_nat _ =? 0) eqn:Hz; [apply Z.eqb_eq in Hz; lia | reflexivity].
  - apply Z.ltb_ge in Hin.
    destruct (Z.of_nat _ =? 0) eqn:Hz; [reflexivity | apply Z.eqb_neq in Hz; lia].
Qed.

End PaginationEdges.

(** ** The listings *)

Lemma slice_in {A : Type} (l : list A) (start stop : Z) (x : A) :
  In x (Py.slice l start stop) -> In x l.
Proof.
  intros Hx. destruct (block_of_slice l start stop) as (pre & post & Hl).
  rewrite Hl. apply in_or_app. right. apply in_or_app. now left.
Qed.

Lemma slice_map {A B : Type} (f : A -> B) (l : list A) (start stop : Z) :
  Py.slice (map f l) start stop = map f (Py.slice l start stop).
Proof.
  unfold Py.slice. now rewrite length_map, skipn_map, firstn_map.
Qed.

Lemma order_by_strict {A : Type} (key : A -> Z) (l : list A) :
  NoDup (map key l) -> StronglySorted (before key) (Sql.order_by key l).
Proof.
  intros Hnodup.
  assert (Hkeys : NoDup (map key (Sql.order_by key l))).
  { eapply Permutation_NoDup; [| exact Hnodup].
    apply Permutation_map, order_by_perm. }
  assert (Hs : StronglySorted (by_key key) (Sql.order_by key l)).
  { apply Sorted_StronglySorted; [apply by_key_trans | apply order_by_sorted]. }
  induction Hs as [| x r Hr IH Hx]; [constructor |].
  simpl in Hkeys. inversion Hkeys as [| ? ? Hfresh Hrest]; subst.
  constructor; [now apply IH |].
  apply Forall_forall. intros y Hy.
  rewrite Forall_forall in Hx. specialize (Hx y Hy).
  unfold by_key in Hx. unfold before.
  assert (key y <> key x).
  { intros Heq. apply Hfresh. rewrite <- Heq. now apply in_map. }
  lia.
Qed.

Lemma strict_sorted_unique {A : Type} (key : A -> Z) (l1 l2 : list A) :
  StronglySorted (before key) l1 ->
  StronglySorted (before key) l2 ->
  Permutation l1 l2 ->
  l1 = l2.
Proof.
  revert l2. induction l1 as [| x l1 IH]; intros l2 H1 H2 Hperm.
  - now apply Permutation_nil in Hperm.
  - destruct l2 as [| y l2].
    + apply Permutation_sym, Permutation_nil in Hperm. discriminate.
    + inversion H1 as [| ? ? Hs1 Hx]; subst.
      inversion H2 as [| ? ? Hs2 Hy]; subst.
      rewrite Forall_forall in Hx, Hy.
      assert (Hxy : x = y).
      { assert (Hin1 : In x (y :: l2)) by (eapply Permutation_in; [exact Hperm | now left]).
        assert (Hin2 : In y (x :: l1))
          by (eapply Permutation_in; [apply Permutation_sym, Hperm | now left]).
        destruct Hin1 as [Heq | Hin1]; [now symmetry |].
        destruct Hin2 as [Heq | Hin2]; [assumption |].
        specialize (Hx y Hin2). specialize (Hy x Hin1).
        unfold before in Hx, Hy. lia. }
      subst y. f_equal. apply IH; try assumption.
      now apply Permutation_cons_inv in Hperm.
Qed.

Lemma order_by_unique {A : Type} (key : A -> Z) (l1 l2 : list A) :
  NoDup (map key l1) ->
  Permutation l1 l2 ->
  Sql.order_by key l1 = Sql.order_by key l2.
Proof.
  intros Hnodup Hperm.
  apply (strict_sorted_unique key).
  - now apply order_by_strict.
  - apply order_by_strict.
    eapply Permutation_NoDup; [apply Permutation_map, Hperm | exact Hnodup].
  - eapply perm_trans; [apply Permutation_sym, order_by_perm |].
    eapply perm_trans; [exact Hperm | apply order_by_perm].
Qed.

Section Listings.

Variable format : Question -> pyobj.

Lemma window_in {A : Type} (n m : nat) (l : list A) (x : A) :
  In x (firstn n (skipn m l)) -> In x l.
Proof.
  intros Hx. rewrite <- (firstn_skipn m l). apply in_or_app. right.
  rewrite <- (firstn_skipn n (skipn m l)). apply in_or_app. now left.
Qed.

Lemma nonempty_page (qs : list Question) (yes no : result view_rv) :
  (if len (map format qs) =? 0 then no else yes)
  = match qs with
    | [] => no
    | _ :: _ => yes
    end.
Proof.
  destruct qs; reflexivity.
Qed.

(** X6: for a page of at least 1, [GET /questions] takes the questions
    of the table sorted by id, and answers with the window of ten of
    that page and, as [totalQuestions], the size of the whole table; it
    aborts with 404 exactly when that window is empty. *)
Theorem retrive_questions_listing (st : Store) (request : Request) :
  1 <= page_of request ->
  exists sorted,
    Permutation (questions st) sorted
    /\ Sorted (by_key id) sorted
    /\ retrive_questions format st request
       = match firstn 10 (skipn (Z.to_nat ((page_of request - 1) * 10)) sorted) with
         | [] => abort 404 None
         | q :: qs =>
             Ok (jsonify (PyDict
               [ (PyStr "questions", PyList (map format (q :: qs)));
                 (PyStr "totalQuestions", PyInt (len (questions st)));
                 (PyStr "categories", get_categories st) ]))
         end.
Proof.
  intros Hpage. exists (Sql.order_by id (questions st)).
  split; [apply order_by_perm |]. split; [apply order_by_sorted |].
  unfold retrive_questions.
  rewrite paginate_questions_window by assumption.
  rewrite nonempty_page.
  now destruct (firstn 10 _).
Qed.

(** X7: with distinct ids, the answer of [GET /questions] does not depend
    on the order in which the table stores its rows. *)
Theorem retrive_questions_order_independent (st st' : Store) (request : Request) :
  NoDup (map id (questions st)) ->
  Permutation (questions st) (questions st') ->
  categories st = categories st' ->
  retrive_questions format st request = retrive_questions format st' request.
Proof.
  intros Hnodup Hperm Hcats.
  unfold retrive_questions, get_categories, len.
  rewrite (order_by_unique id _ _ Hnodup Hperm).
  now rewrite (Permutation_length Hperm), Hcats.
Qed.

(** X8: for a page of at least 1, [GET /categories/<id>/questions]
    answers with the window of ten of that page over the questions of
    that category, in the order of the table, and with the size of the
    whole table (not of the category) as [totalQuestions]; it aborts
    with 404 exactly when the window is empty, as it is when no
    question has the category. *)
Theorem get_questions_by_category_listing
  (st : Store) (request : Request) (category_id : Z) :
  1 <= page_of request ->
  let rows := filter (fun q => category q =? category_id) (questions st) in
  let page := firstn 10 (skipn (Z.to_nat ((page_of request - 1) * 10)) rows) in
  get_questions_by_category format st request category_id
  = match page with
    | [] => abort 404 None
    | q :: qs =>
        Ok (jsonify (PyDict
          [ (PyStr "questions", PyList (map format (q :: qs)));
            (PyStr "totalQuestions", PyInt (len (questions st)));
            (PyStr "categories", get_categories st) ]))
    end
  /\ (forall q, In q page -> In q (questions st) /\ category q = category_id)
  /\ ((forall q, In q (questions st) -> category q <> category_id) -> page = []).
Proof.
  intros Hpage. cbv zeta. split; [| split].
  - unfold get_questions_by_category.
    rewrite paginate_questions_window by assumption.
    rewrite nonempty_page.
    now destruct (firstn 10 _).
  - intros q Hq. apply window_in, filter_In in Hq as [Hin Hcat].
    split; [assumption | now apply Z.eqb_eq].
  - intros Hnone. rewrite filter_none.
    + now rewrite skipn_nil, firstn_nil.
    + intros q Hq. apply Z.eqb_neq. now apply Hnone.
Qed.

End Listings.

(** X9: [GET /categories] always answers 200 with the dict of the
    categories: one entry per row of the table, the ids ascending. *)
Theorem retrive_categories_sorted (st : Store) :
  exists cats,
    full_dispatch_request (retrive_categories st)
    = mkResponse 200 (Json (PyDict
        [ (PyStr "categories", PyDict (map category_item cats)) ]))
    /\ Sorted (by_key cat_id) cats
    /\ Permutation (categories st) cats.
Proof.
  exists (Sql.order_by cat_id (categories st)).
  split; [reflexivity |]. split; [apply order_by_sorted | apply order_by_perm].
Qed.

(** ** Deleting and creating *)

Section Writes.

Variable format : Question -> pyobj.
Variable insert : Store -> NewQuestion -> result Store.
Variable delete : Store -> Question -> result Store.

(** X10: [DELETE /questions/<id>] never answers 200 or 404.  It answers
    422 and leaves the store as it was, or 500 after [delete] went
    through on a row with that id. *)
Theorem delete_question_never_succeeds (st : Store) (question_id : Z) :
  let outcome := delete_question delete st question_id in
  let response := full_dispatch_request (snd outcome) in
  (status response = 422 /\ fst outcome = st)
  \/ (status response = 500
      /\ exists q, In q (questions st) /\ id q = question_id
                   /\ delete st q = Ok (fst outcome)).
Proof.
  cbv zeta. unfold delete_question.
  destruct (filter (fun q => id q =? question_id) (questions st))
    as [| q [| q' rows]] eqn:Hrows; simpl.
  - now left.
  - destruct (delete st q) as [st' |] eqn:Hdel; simpl.
    + right. split; [reflexivity |]. exists q.
      assert (Hq : In q (filter (fun q => id q =? question_id) (questions st)))
        by (rewrite Hrows; now left).
      apply filter_In in Hq as [Hin Hid]. apply Z.eqb_eq in Hid.
      now repeat split.
    + now left.
  - now left.
Qed.

(** X11: a search with a truthy term always answers 200 and never
    changes the store: [totalQuestions] is the number of all matches,
    and [questions] holds at most ten of them. *)
Theorem create_question_search_total
  (st : Store) (request : Request) (term : string) :
  search_request_of request term ->
  let outcome := create_question format insert st request in
  let response := full_dispatch_request (snd outcome) in
  fst outcome = st
  /\ status response = 200
  /\ body_has response "totalQuestions" (PyInt (len (search_selection st term)))
  /\ exists qs,
       body_has response "questions" (PyList (map format qs))
       /\ (List.length qs <= 10)%nat
       /\ incl qs (search_selection st term).
Proof.
  intros Hreq. cbv zeta.
  rewrite (create_question_search format insert st request term Hreq).
  simpl. split; [reflexivity |]. split; [reflexivity |].
  split; [right; right; now left |].
  pose proof (paginate_questions_length format request (search_selection st term))
    as Hlen.
  unfold paginate_questions in *. rewrite slice_map in *.
  set (qs := Py.slice (search_selection st term) _ _) in *.
  exists qs. split; [right; now left |].
  split; [now rewrite length_map in Hlen |].
  intros q Hq. now apply slice_in in Hq.
Qed.


End Writes.

(** ** The quiz at its edges *)

Lemma eligible_member (st : Store) (category_filter : option Z)
  (excluded : list Z) (q : Question) :
  In q (Spec.eligible st category_filter excluded) ->
  In q (questions st)
  /\ ~ In (id q) excluded
  /\ (forall c, category_filter = Some c -> category q = c).
Proof.
  unfold Spec.eligible. intros Hq.
  apply filter_In in Hq as [Hin Hkeep].
  apply andb_true_iff in Hkeep as [Hcat Hex].
  apply negb_true_iff in Hex.
  split; [assumption |]. split.
  - intros Hseen.
    assert (Htrue : existsb (Z.eqb (id q)) excluded = true).
    { apply existsb_exists. exists (id q). split; [assumption | apply Z.eqb_refl]. }
    congruence.
  - intros c Hc. subst category_filter. now apply Z.eqb_eq.
Qed.

Section QuizEdges.

Variable format : Question -> pyobj.
Variable randint : Z -> Z -> Z.

(** X13: a quiz request without a JSON body, without [quiz_category] or
    its [id], with an [id] that [int] rejects, or without
    [previous_questions] is answered with [abort(500, "Error loading
    question")]. *)
Theorem play_quiz_malformed (st : Store) (request : Request) :
  (forall category_id previous, ~ quiz_request_of request category_id previous) ->
  play_quiz format randint st request
  = abort 500 (Some "Error loading question").
Proof.
  intros Hbad. unfold play_quiz, Py.subscript.
  destruct (get_json request) as [body |] eqn:Hjson; simpl; [| reflexivity].
  destruct (b_quiz_category body) as [qc |] eqn:Hqc; simpl; [| reflexivity].
  destruct (Py.lookup "id" qc) as [raw |] eqn:Hid; simpl; [| reflexivity].
  destruct (Py.int raw) as [category_id |] eqn:Hint; simpl; [| reflexivity].
  destruct (b_previous_questions body) as [previous |] eqn:Hprev; simpl;
    [| reflexivity].
  exfalso. apply (Hbad category_id previous).
  exists body, qc, raw. now repeat split.
Qed.

(** X14: whatever [play_quiz] answers to a well-formed request is
    [False] or a question of the store whose id is not among
    [previous_questions], and of the requested category when that
    category exists. *)
Theorem play_quiz_never_repeats (st : Store) (request : Request)
  (category_id : Z) (previous : list Z) :
  quiz_request_of request category_id previous ->
  (forall a b, a <= b -> a <= randint a b <= b) ->
  exists answer,
    play_quiz format randint st request = quiz_answer answer
    /\ (answer = PyBool false
        \/ exists q,
             answer = format q
             /\ In q (questions st)
             /\ ~ In (id q) previous
             /\ (forall c, Sql.get (categories st) category_id = Some c ->
                           category q = category_id)).
Proof.
  intros Hreq Hrand.
  set (found := Sql.get (categories st) category_id).
  destruct (le_lt_dec (List.length (quiz_questions st found previous)) 1)
    as [Hfew | Hmany].
  - exists (PyBool false). split; [| now left].
    now apply (play_quiz_few format randint st request category_id previous).
  - destruct (play_quiz_many format randint st request category_id previous
                Hreq Hrand) as (q & Hin & Hplay); [fold found; lia |].
    fold found in Hin. rewrite quiz_questions_eligible in Hin.
    apply eligible_member in Hin as (Hq & Hseen & Hcat).
    exists (format q). split; [assumption |]. right.
    exists q. repeat split; try assumption.
    intros c Hc. subst found. rewrite Hc in Hcat. simpl in Hcat.
    rewrite (Hcat (cat_id c) eq_refl).
    unfold Sql.get in Hc. apply find_some in Hc as [_ Hc].
    now apply Z.eqb_eq in Hc.
Qed.

(** X15: once every question of the store is among
    [previous_questions], the quiz answers [False] with status 200: the
    end of the quiz is no error. *)
Theorem play_quiz_all_seen (st : Store) (request : Request)
  (category_id : Z) (previous : list Z) :
  quiz_request_of request category_id previous ->
  (forall q, In q (questions st) -> In (id q) previous) ->
  full_dispatch_request (play_quiz format randint st request)
  = mkResponse 200 (Json (PyDict [ (PyStr "question", PyBool false) ])).
Proof.
  intros Hreq Hseen.
  rewrite (play_quiz_few format randint st request category_id previous Hreq);
    [reflexivity |].
  rewrite quiz_questions_eligible. unfold Spec.eligible.
  rewrite filter_none; [simpl; lia |].
  intros q Hq. apply andb_false_iff. right. apply negb_false_iff.
  apply existsb_exists. exists (id q). split; [now apply Hseen | apply Z.eqb_refl].
Qed.

End QuizEdges.

(** ** The search and the case of letters *)

Lemma lower_idem (c : ascii) : Sql.lower (Sql.lower c) = Sql.lower c.
Proof.
  destruct c as [[] [] [] [] [] [] [] []]; reflexivity.
Qed.

Lemma lower_plain (c : ascii) :
  plain_char c = true -> plain_char (Sql.lower c) = true.
Proof.
  destruct c as [[] [] [] [] [] [] [] []]; vm_compute; auto.
Qed.

Lemma eqb_ci_lower (a b : ascii) :
  Sql.eqb_ci (Sql.lower a) (Sql.lower b) = Sql.eqb_ci a b.
Proof.
  unfold Sql.eqb_ci. now rewrite !lower_idem.
Qed.

Lemma like_underscore (p t : list ascii) :
  Sql.like ("_"%char :: p) t
  = match t with
    | [] => false
    | _ :: t' => Sql.like p t'
    end.
Proof.
  reflexivity.
Qed.

Lemma like_escape (p t : list ascii) :
  Sql.like ("\"%char :: p) t
  = match p with
    | [] => false
    | e :: p' =>
        match t with
        | [] => false
        | d :: t' => Sql.eqb_ci e d && Sql.like p' t'
        end
    end.
Proof.
  reflexivity.
Qed.

(** [like] sees the pattern and the text through [lower] only. *)
Lemma like_lower (n : nat) :
  forall p t, (List.length p <= n)%nat ->
    Sql.like p t = Sql.like (map Sql.lower p) (map Sql.lower t).
Proof.
  induction n as [| n IH]; intros p t Hlen.
  - destruct p; [now destruct t | simpl in Hlen; lia].
  - destruct p as [| c p]; [now destruct t |].
    simpl in Hlen.
    assert (IHp : forall t, Sql.like p t
                            = Sql.like (map Sql.lower p) (map Sql.lower t))
      by (intros; apply IH; lia).
    destruct (Ascii.eqb c "%"%char) eqn:Hpct.
    { apply Ascii.eqb_eq in Hpct. subst c.
      change (map Sql.lower ("%"%char :: p)) with ("%"%char :: map Sql.lower p).
      induction t as [| d t IHt].
      - rewrite !like_percent. simpl map. now rewrite (IHp []).
      - rewrite like_percent. simpl map.
        rewrite (like_percent (map Sql.lower p)).
        now rewrite (IHp (d :: t)), IHt. }
    destruct (Ascii.eqb c "_"%char) eqn:Hund.
    { apply Ascii.eqb_eq in Hund. subst c.
      change (map Sql.lower ("_"%char :: p)) with ("_"%char :: map Sql.lower p).
      rewrite !like_underscore. destruct t; [reflexivity | apply IHp]. }
    destruct (Ascii.eqb c "\"%char) eqn:Hesc.
    { apply Ascii.eqb_eq in Hesc. subst c.
      change (map Sql.lower ("\"%char :: p)) with ("\"%char :: map Sql.lower p).
      rewrite !like_escape.
      destruct p as [| e p]; [reflexivity |].
      destruct t as [| d t]; [reflexivity |].
      cbn [map]. rewrite eqb_ci_lower. f_equal.
      apply IH. simpl in Hlen. lia. }
    assert (Hplain : plain_char c = true)
      by (unfold plain_char; now rewrite Hpct, Hund, Hesc).
    simpl map. rewrite like_plain by assumption.
    rewrite like_plain by now apply lower_plain.
    destruct t as [| d t]; [reflexivity |].
    cbn [map]. now rewrite eqb_ci_lower, (IHp t).
Qed.

(** X16: the search ignores the case of letters, in the term and in the
    text of the questions, whatever characters the term holds. *)
Theorem search_ignores_case (st : Store) (term term' : string) :
  same_letters term term' ->
  (forall text text',
      same_letters text text' ->
      Sql.ilike text ("%" ++ term ++ "%")%string
      = Sql.ilike text' ("%" ++ term' ++ "%")%string)
  /\ search_selection st term = search_selection st term'.
Proof.
  intros Hterm.
  assert (Hlike : forall text text',
             same_letters text text' ->
             Sql.ilike text ("%" ++ term ++ "%")%string
             = Sql.ilike text' ("%" ++ term' ++ "%")%string).
  { intros text text' Htext. unfold Sql.ilike, same_letters in *.
    rewrite (like_lower _ _ _ (le_n _)).
    rewrite (like_lower _ (list_ascii_of_string ("%" ++ term' ++ "%")%string)
               _ (le_n _)).
    rewrite !list_ascii_of_string_app, !map_app.
    now rewrite Hterm, Htext. }
  split; [exact Hlike |].
  unfold search_selection. apply filter_ext.
  intros q. now apply Hlike.
Qed.

(** ** The further properties at concrete inputs *)

Lemma paginate_questions_default_page_witness :
  no_page (Sample.page_request "abc")
  /\ paginate_questions Models.format (Sample.page_request "abc") twelve
     = map Models.format (firstn 10 twelve).
Proof.
  assert (Hno : no_page (Sample.page_request "abc")).
  { right. exists "abc", ValueError. split; reflexivity. }
  split; [exact Hno |].
  apply (paginate_questions_default_page Models.format
           (Sample.page_request "abc") twelve Hno).
Defined.

Lemma paginate_questions_page_zero_witness :
  page_of (Sample.page_request "0") = 0
  /\ paginate_questions Models.format (Sample.page_request "0") twelve = []
  /\ retrive_questions Models.format Sample.four_science (Sample.page_request "0")
     = abort 404 None.
Proof.
  split; [reflexivity |].
  apply (paginate_questions_page_zero Models.format (Sample.page_request "0")
           twelve Sample.four_science eq_refl).
Defined.

Lemma paginate_questions_count_witness :
  1 <= page_of (Sample.page_request "2")
  /\ len (paginate_questions Models.format (Sample.page_request "2") twelve)
     = Z.max 0 (Z.min 10 (len twelve - (page_of (Sample.page_request "2") - 1) * 10)).
Proof.
  assert (Hpage : 1 <= page_of (Sample.page_request "2")) by (vm_compute; discriminate).
  split; [exact Hpage |].
  apply (paginate_questions_count Models.format (Sample.page_request "2")
           twelve Hpage).
Defined.

Lemma retrive_questions_status_witness :
  1 <= page_of (Sample.page_request "1")
  /\ status (full_dispatch_request
               (retrive_questions Models.format Sample.four_science
                                  (Sample.page_request "1")))
     = if (page_of (Sample.page_request "1") - 1) * 10
          <? len (questions Sample.four_science)
       then 200 else 404.
Proof.
  assert (Hpage : 1 <= page_of (Sample.page_request "1")) by (vm_compute; discriminate).
  split; [exact Hpage |].
  apply (retrive_questions_status Models.format Sample.four_science
           (Sample.page_request "1") Hpage).
Defined.

Lemma retrive_questions_order_independent_witness :
  NoDup (map id (questions Sample.four_science))
  /\ Permutation (questions Sample.four_science) (questions four_science_shuffled)
  /\ categories Sample.four_science = categories four_science_shuffled
  /\ retrive_questions Models.format Sample.four_science (Sample.page_request "1")
     = retrive_questions Models.format four_science_shuffled (Sample.page_request "1").
Proof.
  assert (Hnodup : NoDup (map id (questions Sample.four_science))).
  { simpl. repeat constructor; simpl; intuition discriminate. }
  assert (Hperm : Permutation (questions Sample.four_science)
                              (questions four_science_shuffled)).
  { apply (perm_trans (order_by_perm id (questions Sample.four_science))).
    change (Sql.order_by id (questions Sample.four_science))
      with (Sql.order_by id (questions four_science_shuffled)).
    apply Permutation_sym, order_by_perm. }
  split; [exact Hnodup |]. split; [exact Hperm |]. split; [reflexivity |].
  apply (retrive_questions_order_independent Models.format Sample.four_science
           four_science_shuffled (Sample.page_request "1") Hnodup Hperm eq_refl).
Defined.

Lemma create_question_search_total_witness :
  search_request_of (search_page_request "WHO" "1") "WHO"
  /\ fst (create_question Models.format Models.insert Sample.four_science
                          (search_page_request "WHO" "1"))
     = Sample.four_science
  /\ status (full_dispatch_request
               (snd (create_question Models.format Models.insert Sample.four_science
                                     (search_page_request "WHO" "1")))) = 200.
Proof.
  assert (Hreq : search_request_of (search_page_request "WHO" "1") "WHO").
  { eexists. repeat split; reflexivity. }
  split; [exact Hreq |].
  pose proof (create_question_search_total Models.format Models.insert
                Sample.four_science (search_page_request "WHO" "1") "WHO" Hreq)
    as (Hstore & Hstatus & _).
  split; [exact Hstore | exact Hstatus].
Defined.

Lemma play_quiz_malformed_witness :
  (forall category_id previous,
      ~ quiz_request_of quiz_without_previous category_id previous)
  /\ play_quiz Models.format Sample.last_draw Sample.four_science
               quiz_without_previous
     = abort 500 (Some "Error loading question").
Proof.
  assert (Hbad : forall category_id previous,
             ~ quiz_request_of quiz_without_previous category_id previous).
  { intros category_id previous (body & qc & raw & Hjson & _ & _ & _ & Hprev).
    simpl in Hjson. inversion Hjson; subst body. discriminate Hprev. }
  split; [exact Hbad |].
  apply (play_quiz_malformed Models.format Sample.last_draw Sample.four_science
           quiz_without_previous Hbad).
Defined.

Lemma play_quiz_never_repeats_witness :
  quiz_request_of (Sample.quiz_request (SStr "1") seen_two) 1 seen_two
  /\ (forall a b, a <= b -> a <= Sample.last_draw a b <= b)
  /\ exists answer,
       play_quiz Models.format Sample.last_draw Sample.four_science
                 (Sample.quiz_request (SStr "1") seen_two)
       = quiz_answer answer
       /\ (answer = PyBool false
           \/ exists q,
                answer = Models.format q
                /\ In q (questions Sample.four_science)
                /\ ~ In (id q) seen_two
                /\ (forall c, Sql.get (categories Sample.four_science) 1 = Some c ->
                              category q = 1)).
Proof.
  assert (Hreq : quiz_request_of (Sample.quiz_request (SStr "1") seen_two) 1 seen_two).
  { do 3 eexists. repeat split; reflexivity. }
  assert (Hrand : forall a b, a <= b -> a <= Sample.last_draw a b <= b).
  { intros a b Hab. unfold Sample.last_draw. lia. }
  split; [exact Hreq |]. split; [exact Hrand |].
  apply (play_quiz_never_repeats Models.format Sample.last_draw Sample.four_science
           (Sample.quiz_request (SStr "1") seen_two) 1 seen_two Hreq Hrand).
Defined.

Lemma play_quiz_all_seen_witness :
  quiz_request_of (Sample.quiz_request (SInt 1) seen_three) 1 seen_three
  /\ (forall q, In q (questions Sample.three_science) -> In (id q) seen_three)
  /\ full_dispatch_request
       (play_quiz Models.format Sample.last_draw Sample.three_science
                  (Sample.quiz_request (SInt 1) seen_three))
     = mkResponse 200 (Json (PyDict [ (PyStr "question", PyBool false) ])).
Proof.
  assert (Hreq : quiz_request_of (Sample.quiz_request (SInt 1) seen_three) 1 seen_three).
  { do 3 eexists. repeat split; reflexivity. }
  assert (Hseen : forall q, In q (questions Sample.three_science) ->
                            In (id q) seen_three).
  { intros q [<- | [<- | [<- | []]]]; simpl; auto. }
  split; [exact Hreq |]. split; [exact Hseen |].
  apply (play_quiz_all_seen Models.format Sample.last_draw Sample.three_science
           (Sample.quiz_request (SInt 1) seen_three) 1 seen_three Hreq Hseen).
Defined.

Lemma search_ignores_case_witness :
  same_letters "ORGAN" "organ"
  /\ search_selection Sample.mixed "ORGAN" = search_selection Sample.mixed "organ".
Proof.
  assert (Hsame : same_letters "ORGAN" "organ") by reflexivity.
  split; [exact Hsame |].
  apply (search_ignores_case Sample.mixed "ORGAN" "organ" Hsame).
Defined.

Lemma search_selection_plain_witness :
  forallb plain_char (list_ascii_of_string "organ") = true
  /\ (forall q, In q (search_selection Sample.mixed "organ")
                <-> In q (questions Sample.mixed)
                    /\ Spec.contains_ci "organ" (question q) = true)
  /\ Sorted (by_key id) (search_selection Sample.mixed "organ").
Proof.
  split; [reflexivity |].
  apply (search_selection_plain Sample.mixed "organ" eq_refl).
Defined.

Lemma play_quiz_known_category_witness :
  quiz_request_of (Sample.quiz_request (SStr "1") seen_two) 1 seen_two
  /\ Sql.get (categories Sample.four_science) 1 = Some Sample.science
  /\ (forall a b, a <= b -> a <= Sample.last_draw a b <= b)
  /\ (2 <= List.length (Spec.eligible Sample.four_science (Some 1%Z) seen_two))%nat
  /\ exists q,
       In q (questions Sample.four_science)
       /\ category q = 1
       /\ ~ In (id q) seen_two
       /\ play_quiz Models.format Sample.last_draw Sample.four_science
                    (Sample.quiz_request (SStr "1") seen_two)
          = quiz_answer (Models.format q).
Proof.
  assert (Hreq : quiz_request_of (Sample.quiz_request (SStr "1") seen_two) 1 seen_two).
  { do 3 eexists. repeat split; reflexivity. }
  assert (Hrand : forall a b, a <= b -> a <= Sample.last_draw a b <= b).
  { intros a b Hab. unfold Sample.last_draw. lia. }
  assert (Hmany : (2 <= List.length
                          (Spec.eligible Sample.four_science (Some 1%Z) seen_two))%nat).
  { vm_compute. lia. }
  split; [exact Hreq |]. split; [reflexivity |]. split; [exact Hrand |].
  split; [exact Hmany |].
  apply (play_quiz_known_category Models.format Sample.last_draw
           Sample.four_science (Sample.quiz_request (SStr "1") seen_two)
           1 seen_two Sample.science Hreq eq_refl Hrand Hmany).
Defined.

Lemma retrive_questions_listing_witness :
  1 <= page_of (Sample.page_request "1")
  /\ exists sorted,
       Permutation (questions four_science_shuffled) sorted
       /\ Sorted (by_key id) sorted
       /\ retrive_questions Models.format four_science_shuffled
                            (Sample.page_request "1")
          = match firstn 10 (skipn (Z.to_nat ((page_of (Sample.page_request "1") - 1)
                                              * 10)) sorted) with
            | [] => abort 404 None
            | q :: qs =>
                Ok (jsonify (PyDict
                  [ (PyStr "questions", PyList (map Models.format (q :: qs)));
                    (PyStr "totalQuestions",
                     PyInt (len (questions four_science_shuffled)));
                    (PyStr "categories", get_categories four_science_shuffled) ]))
            end.
Proof.
  assert (Hpage : 1 <= page_of (Sample.page_request "1")) by (vm_compute; discriminate).
  split; [exact Hpage |].
  apply (retrive_questions_listing Models.format four_science_shuffled
           (Sample.page_request "1") Hpage).
Defined.

Lemma get_questions_by_category_listing_witness :
  1 <= page_of (Sample.page_request "1")
  /\ get_questions_by_category Models.format Sample.mixed (Sample.page_request "1") 1
     = Ok (jsonify (PyDict
         [ (PyStr "questions",
            PyList (map Models.format [Sample.q20; Sample.q16]));
           (PyStr "totalQuestions", PyInt 3);
           (PyStr "categories", get_categories Sample.mixed) ])).
Proof.
  assert (Hpage : 1 <= page_of (Sample.page_request "1")) by (vm_compute; discriminate).
  split; [exact Hpage |].
  exact (proj1 (get_questions_by_category_listing Models.format Sample.mixed
                  (Sample.page_request "1") 1 Hpage)).
Defined.

